(** * Graphistry MCP launcher: a shallow embedding of [index.js] and
      [postinstall.js]

    The two Node.js scripts of the package are embedded as functions that
    thread an explicit trace of observable effects (filesystem checks,
    synchronous probes, console lines, the spawn of the worker, signals
    relayed to it) and end either with a value, with a JavaScript exception
    or with [process.exit].  What the operating system and the Node.js
    runtime answer is gathered in a [World] record, so that every statement
    below quantifies over all possible machines. *)

From Stdlib Require Import ZArith Ascii String DecimalString.
From stdpp Require Import base strings list gmap.

#[local] Set Warnings "-clear-no-such-hyp".

Local Open Scope Z_scope.
Local Open Scope string_scope.
Local Open Scope list_scope.

(** ** Strings *)

(** The double quote character, as a one-character string. *)
Definition dq : string := String "034"%char EmptyString.

(** The escape character of the ANSI colour sequences (JavaScript [\x1b]). *)
Definition esc : string := String "027"%char EmptyString.

(** The NUL character, refused by Node in a file name. *)
Definition nul : ascii := "000"%char.

(** A template literal [`${n}`] for an integer [n]: its decimal digits. *)
Definition js_number (n : Z) : string := NilZero.string_of_int (Z.to_int n).

(** [String.prototype.repeat]. *)
Fixpoint js_repeat (s : string) (n : nat) : string :=
  match n with
  | O => ""
  | S n' => s +:+ js_repeat s n'
  end.

(** [String.prototype.includes] for a single character. *)
Fixpoint has_char (c : ascii) (s : string) : bool :=
  match s with
  | EmptyString => false
  | String c' s' => if Ascii.eqb c c' then true else has_char c s'
  end.

(** JavaScript truthiness of a value that is [null] or a string. *)
Definition truthy (s : option string) : bool :=
  match s with
  | None => false
  | Some v => negb (String.eqb v "")
  end.

(** ** Observable effects *)

Inductive event : Type :=
| ExistsSync (path : string)
| SpawnSync (file : string) (args : list string)
| ExecSync (command : string) (cwd : string) (env : gmap string string)
| Spawn (file : string) (args : list string) (env : gmap string string)
| Kill (signal : string)
| ConsoleLog (line : string)
| ConsoleWarn (line : string)
| ConsoleError (line : string).

(** [console.warn] and [console.error] both write to standard error. *)
Definition stderr_line (e : event) : option string :=
  match e with
  | ConsoleWarn l | ConsoleError l => Some l
  | _ => None
  end.

Definition stderr_of (t : list event) : list string := omap stderr_line t.

Definition is_probe (e : event) : bool :=
  match e with SpawnSync _ _ => true | _ => false end.

Definition is_spawn (e : event) : bool :=
  match e with Spawn _ _ _ => true | _ => false end.

Definition is_warning (e : event) : bool :=
  match e with ConsoleWarn _ => true | _ => false end.

(** ** The effect monad: a trace and a completion *)

Inductive completion (A : Type) : Type :=
| Ret (a : A)
| Throw (message : string)
| Exit (code : Z).
Arguments Ret {A} a.
Arguments Throw {A} message.
Arguments Exit {A} code.

Definition Proc (A : Type) : Type := list event * completion A.

Definition trace_of {A} (m : Proc A) : list event := fst m.
Definition result_of {A} (m : Proc A) : completion A := snd m.

#[global] Instance proc_ret : MRet Proc := λ A a, ([], Ret a).

#[global] Instance proc_bind : MBind Proc := λ A B f m,
  match m with
  | (t, Ret a) => let '(t', r) := f a in (t ++ t', r)
  | (t, Throw e) => (t, Throw e)
  | (t, Exit c) => (t, Exit c)
  end.

Definition emit (e : event) : Proc unit := ([e], Ret tt).
Definition throw {A} (message : string) : Proc A := ([], Throw message).

(** [process.exit(code)]: nothing after it runs, and no [catch] sees it. *)
Definition process_exit {A} (code : Z) : Proc A := ([], Exit code).

(** [try { body } catch (e) { handler(e) }]. *)
Definition try_catch {A} (body : Proc A) (handler : string → Proc A) : Proc A :=
  match body with
  | (t, Throw e) => let '(t', r) := handler e in (t ++ t', r)
  | other => other
  end.

Definition console_log (l : string) : Proc unit := emit (ConsoleLog l).
Definition console_warn (l : string) : Proc unit := emit (ConsoleWarn l).
Definition console_error (l : string) : Proc unit := emit (ConsoleError l).

(** ** The machine and the Node.js runtime *)

(** What the operating system does with a request to run a program. *)
Inductive os_outcome : Type :=
| LaunchFailed (errno : string)
| Exited (code : Z)
| Signaled (signal : string).

Record World : Type := {
  dirname : string;                          (* __dirname *)
  path_join : list string → string;          (* path.join *)
  fs_exists : string → bool;                 (* the filesystem *)
  os_run : string → list string → os_outcome;(* running file with args *)
  os_shell : string → os_outcome;            (* running a shell command *)
  process_env : gmap string string           (* process.env *)
}.

(** The object returned by [child_process.spawnSync]. *)
Record SpawnSyncResult : Type := {
  status : option Z;
  signal : option string;
  error : option string
}.

Definition spawn_sync_result (o : os_outcome) : SpawnSyncResult :=
  match o with
  | LaunchFailed errno => {| status := None; signal := None; error := Some errno |}
  | Exited c => {| status := Some c; signal := None; error := None |}
  | Signaled s => {| status := None; signal := Some s; error := None |}
  end.

(** Node validates the [file] argument before anything is launched: an
    empty string or one holding a NUL byte raises [ERR_INVALID_ARG_VALUE]. *)
Definition valid_file (file : string) : bool :=
  negb (String.eqb file "") && negb (has_char nul file).

(** [child_process.spawnSync(file, args, options)]: a launch that fails
    ([ENOENT], [EACCES]) is described by the [error] field of the returned
    object, with a [null] status; only an invalid argument throws. *)
Definition spawnSync (w : World) (file : string) (args : list string)
  : Proc SpawnSyncResult :=
  if valid_file file
  then emit (SpawnSync file args) ;; mret (spawn_sync_result (os_run w file args))
  else throw ("The argument 'file' is invalid. Received '" +:+ file +:+ "'").

(** [fs.existsSync(path)]. *)
Definition existsSync (w : World) (path : string) : Proc bool :=
  emit (ExistsSync path) ;; mret (fs_exists w path).

(** [child_process.execSync(command, options)]: throws unless the command
    ran and ended with status 0. *)
Definition execSync (w : World) (command cwd : string) (env : gmap string string)
  : Proc unit :=
  emit (ExecSync command cwd env) ;;
  match os_shell w command with
  | Exited 0 => mret tt
  | LaunchFailed errno => throw errno
  | Exited _ | Signaled _ => throw ("Command failed: " +:+ command)
  end.

(** [status === 0] on a status that is a number or [null]. *)
Definition is_zero (status : option Z) : bool :=
  match status with
  | Some 0 => true
  | _ => false
  end.

(** * index.js: the supervisor *)

Module Index.

(** ** Interpreter selection *)

Definition venvPaths (w : World) : list string :=
  [ path_join w [dirname w; ".venv"; "bin"; "python"];           (* Unix *)
    path_join w [dirname w; ".venv"; "Scripts"; "python.exe"] ]. (* Windows *)

Definition candidates : list string := ["python3"; "python"].

Definition system_python_warning : string :=
  "Warning: Using system Python. Dependencies may not be available.".

Definition reinstall_hint : string :=
  "If you see import errors, try running: npm install again".

Definition python_not_found : string :=
  "Error: Python not found. Please install Python 3.10+ from python.org".

(** The first loop of [findPython]; [Some p] is its early [return p]. *)
Fixpoint venv_loop (w : World) (paths : list string) : Proc (option string) :=
  match paths with
  | [] => mret None
  | venvPath :: rest =>
      present ← existsSync w venvPath;
      if (present : bool) then mret (Some venvPath) else venv_loop w rest
  end.

(** The body of the second loop: the [try] block and its empty [catch]. *)
Definition try_candidate (w : World) (cmd : string) : Proc (option string) :=
  try_catch
    (result ← spawnSync w cmd ["--version"];
     if is_zero (status result)
     then console_warn system_python_warning ;;
          console_warn reinstall_hint ;;
          mret (Some cmd)
     else mret None)
    (λ _, mret None).

Fixpoint candidate_loop (w : World) (cmds : list string) : Proc (option string) :=
  match cmds with
  | [] => mret None
  | cmd :: rest =>
      chosen ← try_candidate w cmd;
      match chosen with
      | Some c => mret (Some c)
      | None => candidate_loop w rest
      end
  end.

Definition findPython (w : World) : Proc string :=
  fromVenv ← venv_loop w (venvPaths w);
  match fromVenv with
  | Some venvPath => mret venvPath
  | None =>
      fromSystem ← candidate_loop w candidates;
      match fromSystem with
      | Some cmd => mret cmd
      | None => console_error python_not_found ;; process_exit 1
      end
  end.

(** ** Start-up: the synchronous part of the script *)

Definition serverPath (w : World) : string :=
  path_join w [dirname w; "run_graphistry_mcp.py"].

Definition server_not_found (w : World) : string :=
  "Error: MCP server not found at " +:+ serverPath w.

(** [{ ...process.env, PYTHONUNBUFFERED: '1', GRAPHISTRY_VENV_ACTIVE: '1' }] *)
Definition worker_env (w : World) : gmap string string :=
  <["GRAPHISTRY_VENV_ACTIVE" := "1"]>
    (<["PYTHONUNBUFFERED" := "1"]> (process_env w)).

(** Everything from the first statement to the [spawn] call; the value is
    the interpreter the worker was started with. *)
Definition startup (w : World) : Proc string :=
  present ← existsSync w (serverPath w);
  (if negb present
   then console_error (server_not_found w) ;; process_exit 1
   else mret tt) ;;
  pythonCmd ← findPython w;
  emit (Spawn pythonCmd [serverPath w] (worker_env w)) ;;
  mret pythonCmd.

(** ** Listeners *)

(** [pythonProcess.on('error', (err) => ...)] *)
Definition on_error (message : string) : Proc unit :=
  console_error ("Failed to start Python MCP server: " +:+ message) ;;
  process_exit 1.

(** [pythonProcess.on('exit', (code, signal) => ...)] *)
Definition on_exit (code : option Z) (signal : option string) : Proc unit :=
  match code with
  | Some c =>
      if negb (Z.eqb c 0)
      then console_error ("Python MCP server exited with code " +:+ js_number c) ;;
           process_exit c
      else mret tt
  | None => mret tt
  end ;;
  if truthy signal
  then console_error ("Python MCP server killed by signal " +:+ default "" signal) ;;
       process_exit 1
  else mret tt.

(** [['SIGTERM', 'SIGINT'].forEach(signal => process.on(signal, ...))] *)
Definition forwarded : list string := ["SIGTERM"; "SIGINT"].

Definition signal_listeners : list (string * Proc unit) :=
  (λ signal, (signal, emit (Kill signal))) <$> forwarded.

Fixpoint listener_for (name : string) (ls : list (string * Proc unit))
  : option (Proc unit) :=
  match ls with
  | [] => None
  | (n, h) :: rest => if String.eqb n name then Some h else listener_for name rest
  end.

(** ** The event loop *)

(** What can wake the supervisor up once the worker has been spawned. *)
Inductive loop_event : Type :=
| ChildError (message : string)                        (* 'error' on the child *)
| ChildExit (code : option Z) (signal : option string) (* 'exit' on the child *)
| Signal (name : string).                              (* a signal to the supervisor *)

Inductive sup_state : Type :=
| Running
| Finished (code : Z)          (* the supervisor process has ended with [code] *)
| Unhandled (name : string).   (* a signal without listener: default disposition *)

(** How the worker ends, as the operating system sees it, and the
    arguments Node then gives to the ['exit'] listener: exactly one of
    the two is not [null]. *)
Inductive worker_end : Type :=
| EndCode (code : Z)
| EndSignal (name : string).

Definition exit_event (e : worker_end) : loop_event :=
  match e with
  | EndCode c => ChildExit (Some c) None
  | EndSignal s => ChildExit None (Some s)
  end.

(** The state after a listener has run.  [process.exit] ends the process
    with its argument and an uncaught exception with 1.  When the ['exit']
    listener returns, the child was the last thing the loop waited for
    (its streams are inherited and signal listeners do not keep the loop
    alive), so the process ends with the default status 0. *)
Definition settle (ev : loop_event) (r : completion unit) : sup_state :=
  match r with
  | Exit c => Finished c
  | Throw _ => Finished 1
  | Ret _ =>
      match ev with
      | ChildExit _ _ => Finished 0
      | _ => Running
      end
  end.

Definition step (ev : loop_event) : list event * sup_state :=
  match ev with
  | ChildError message =>
      let '(t, r) := on_error message in (t, settle ev r)
  | ChildExit code signal =>
      let '(t, r) := on_exit code signal in (t, settle ev r)
  | Signal name =>
      match listener_for name signal_listeners with
      | Some h => let '(t, r) := h in (t, settle ev r)
      | None => ([], Unhandled name)
      end
  end.

Fixpoint event_loop (evs : list loop_event) : list event * sup_state :=
  match evs with
  | [] => ([], Running)
  | ev :: rest =>
      match step ev with
      | (t, Running) => let '(t', s) := event_loop rest in (t ++ t', s)
      | stopped => stopped
      end
  end.

(** A whole run of the script against the events the machine delivers. *)
Definition supervisor (w : World) (evs : list loop_event) : list event * sup_state :=
  match startup w with
  | (t, Ret _) => let '(t', s) := event_loop evs in (t ++ t', s)
  | (t, Exit c) => (t, Finished c)
  | (t, Throw _) => (t, Finished 1)
  end.

End Index.

(** * postinstall.js: the dependency installer *)

Module Postinstall.

(** A line feed, as a one-character string (JavaScript [\n]). *)
Definition nl : string := String "010"%char EmptyString.

(** ANSI colour codes. *)
Module colors.
Definition reset : string := esc +:+ "[0m".
Definition bright : string := esc +:+ "[1m".
Definition green : string := esc +:+ "[32m".
Definition yellow : string := esc +:+ "[33m".
Definition red : string := esc +:+ "[31m".
Definition cyan : string := esc +:+ "[36m".
End colors.

Definition log (msg color : string) : Proc unit :=
  console_log (color +:+ msg +:+ colors.reset).

Definition checkCommand (w : World) (cmd : string) : Proc bool :=
  try_catch
    (spawnSync w cmd ["--version"] ;; mret true)
    (λ _, mret false).

Definition candidates : list string := ["python3"; "python"].

(** The loop of [findPython]; [Some cmd] is its early [return cmd]. *)
Fixpoint candidate_loop (w : World) (cmds : list string) : Proc (option string) :=
  match cmds with
  | [] => mret None
  | cmd :: rest =>
      ok ← checkCommand w cmd;
      if (ok : bool) then mret (Some cmd) else candidate_loop w rest
  end.

(** [findPython()]; [None] is JavaScript's [null]. *)
Definition findPython (w : World) : Proc (option string) :=
  candidate_loop w candidates.

(** [{ ...process.env, PYTHONUNBUFFERED: '1' }] *)
Definition install_env (w : World) : gmap string string :=
  <["PYTHONUNBUFFERED" := "1"]> (process_env w).

Definition installWithUv (w : World) (pythonCmd : string) : Proc bool :=
  log (nl +:+ "🚀 Installing Python dependencies with uv...") colors.cyan ;;
  try_catch
    (let pyprojectPath := path_join w [dirname w; "pyproject.toml"] in
     present ← existsSync w pyprojectPath;
     (if negb present then throw "pyproject.toml not found" else mret tt) ;;
     execSync w "uv sync --no-dev" (dirname w) (install_env w) ;;
     log ("✅ Python dependencies installed with uv" +:+ nl) colors.green ;;
     mret true)
    (λ message,
     log ("⚠️  uv installation failed: " +:+ message) colors.yellow ;;
     mret false).

Definition installWithPip (w : World) (pythonCmd : string) : Proc bool :=
  log (nl +:+ "📦 Installing Python dependencies with pip...") colors.cyan ;;
  try_catch
    (execSync w (pythonCmd +:+ " -m pip install -e " +:+ dq +:+ ".[dev]" +:+ dq)
       (dirname w) (install_env w) ;;
     log ("✅ Python dependencies installed with pip" +:+ nl) colors.green ;;
     mret true)
    (λ message,
     log ("❌ pip installation failed: " +:+ message) colors.red ;;
     mret false).

Definition rule : string := js_repeat "=" 60.

Definition printSuccessMessage (usedUv : bool) : Proc unit :=
  log (nl +:+ rule) colors.bright ;;
  log "  ✅ Installation Complete!" colors.green ;;
  log (rule +:+ nl) colors.bright ;;
  log "Next steps:" colors.cyan ;;
  log "1. Get a free Graphistry account:" colors.reset ;;
  log ("   https://hub.graphistry.com" +:+ nl) colors.cyan ;;
  log "2. Set your Graphistry credentials:" colors.reset ;;
  log ("   export GRAPHISTRY_USERNAME=" +:+ dq +:+ "your_username" +:+ dq) colors.cyan ;;
  log ("   export GRAPHISTRY_PASSWORD=" +:+ dq +:+ "your_password" +:+ dq +:+ nl)
    colors.cyan ;;
  log "3. Configure in Claude Code MCP settings:" colors.reset ;;
  log "   {" colors.reset ;;
  log ("     " +:+ dq +:+ "graphistry" +:+ dq +:+ ": {") colors.reset ;;
  log ("       " +:+ dq +:+ "command" +:+ dq +:+ ": " +:+ dq +:+ "npx" +:+ dq +:+ ",")
    colors.reset ;;
  log ("       " +:+ dq +:+ "args" +:+ dq +:+ ": [" +:+ dq +:+ "-y" +:+ dq +:+ ", "
       +:+ dq +:+ "@silkspace/graphistry-mcp" +:+ dq +:+ "],") colors.reset ;;
  log ("       " +:+ dq +:+ "env" +:+ dq +:+ ": {") colors.reset ;;
  log ("         " +:+ dq +:+ "GRAPHISTRY_USERNAME" +:+ dq +:+ ": " +:+ dq
       +:+ "your_username" +:+ dq +:+ ",") colors.reset ;;
  log ("         " +:+ dq +:+ "GRAPHISTRY_PASSWORD" +:+ dq +:+ ": " +:+ dq
       +:+ "your_password" +:+ dq) colors.reset ;;
  log "       }" colors.reset ;;
  log "     }" colors.reset ;;
  log ("   }" +:+ nl) colors.reset ;;
  log ("Documentation: https://github.com/graphistry/graphistry-mcp" +:+ nl)
    colors.cyan.

(** The fallback of [main]: the statements after its [if (hasUv)]. *)
Definition pip_fallback (w : World) (pythonCmd : string) : Proc unit :=
  installed ← installWithPip w pythonCmd;
  if (installed : bool)
  then printSuccessMessage false
  else
    log (nl +:+ "❌ Failed to install Python dependencies!" +:+ nl) colors.red ;;
    log "Please install manually:" colors.yellow ;;
    log "  uv sync" colors.cyan ;;
    log "  OR" colors.yellow ;;
    log ("  pip install -e " +:+ dq +:+ ".[dev]" +:+ dq +:+ nl) colors.cyan ;;
    process_exit 1.

(** The statements of [main] once an interpreter name is in [pythonCmd]. *)
Definition install (w : World) (pythonCmd : string) : Proc unit :=
  log ("✓ Found Python: " +:+ pythonCmd) colors.green ;;
  hasUv ← checkCommand w "uv";
  if (hasUv : bool)
  then
    log "✓ Found uv (recommended package manager)" colors.green ;;
    installed ← installWithUv w pythonCmd;
    if (installed : bool)
    then printSuccessMessage true   (* followed by [return] *)
    else log (nl +:+ "Falling back to pip...") colors.yellow ;;
         pip_fallback w pythonCmd
  else
    log "ℹ uv not found - using pip instead" colors.yellow ;;
    log ("  (Install uv for faster dependency management: "
         +:+ "https://github.com/astral-sh/uv)" +:+ nl) colors.cyan ;;
    pip_fallback w pythonCmd.

Definition banner : Proc unit :=
  log (nl +:+ rule) colors.bright ;;
  log "  Graphistry MCP - Python Dependencies Setup" colors.bright ;;
  log (rule +:+ nl) colors.bright.

(** The branch of [main] taken when [findPython] returns [null]. *)
Definition python_missing : Proc unit :=
  log "❌ Python not found!" colors.red ;;
  log (nl +:+ "Please install Python 3.10+ from https://python.org") colors.yellow ;;
  log ("Then run: npm install again" +:+ nl) colors.yellow ;;
  process_exit 1.

Definition main (w : World) : Proc unit :=
  banner ;;
  pythonCmd ← findPython w;
  match pythonCmd with
  | None => python_missing
  | Some cmd => install w cmd
  end.

End Postinstall.

(** * Reference descriptions used by the statements *)

(** The answer of the machine to [cmd --version]: does it run and end with
    status 0? *)
Definition version_probe (w : World) (cmd : string) : bool :=
  is_zero (status (spawn_sync_result (os_run w cmd ["--version"]))).

Definition unix_venv (w : World) : string :=
  path_join w [dirname w; ".venv"; "bin"; "python"].

Definition windows_venv (w : World) : string :=
  path_join w [dirname w; ".venv"; "Scripts"; "python.exe"].

Definition probe_event (cmd : string) : event := SpawnSync cmd ["--version"].

Definition warnings : list event :=
  [ConsoleWarn Index.system_python_warning; ConsoleWarn Index.reinstall_hint].

(** Where the selected interpreter comes from. *)
Inductive choice : Type :=
| FromVenv (path : string)
| FromSystem (cmd : string)
| NoPython.

(** The selection order in words: the venv interpreter of the Unix layout,
    else that of the Windows layout, each by an existence check; else
    [python3], else [python], each by running it with [--version] and
    asking for status 0; else nothing. *)
Definition chosen (w : World) : choice :=
  if fs_exists w (unix_venv w) then FromVenv (unix_venv w)
  else if fs_exists w (windows_venv w) then FromVenv (windows_venv w)
  else if version_probe w "python3" then FromSystem "python3"
  else if version_probe w "python" then FromSystem "python"
  else NoPython.

(** The same order with everything the selection does on the way. *)
Definition selection_table (w : World) : Proc string :=
  if fs_exists w (unix_venv w) then
    ([ExistsSync (unix_venv w)], Ret (unix_venv w))
  else if fs_exists w (windows_venv w) then
    ([ExistsSync (unix_venv w); ExistsSync (windows_venv w)], Ret (windows_venv w))
  else if version_probe w "python3" then
    ([ExistsSync (unix_venv w); ExistsSync (windows_venv w); probe_event "python3"]
       ++ warnings, Ret "python3")
  else if version_probe w "python" then
    ([ExistsSync (unix_venv w); ExistsSync (windows_venv w);
      probe_event "python3"; probe_event "python"] ++ warnings, Ret "python")
  else
    ([ExistsSync (unix_venv w); ExistsSync (windows_venv w);
      probe_event "python3"; probe_event "python";
      ConsoleError Index.python_not_found], Exit 1).

(** The line the ['exit'] listener writes for a worker that ended with
    status [c]: none for 0. *)
Definition exit_report (c : Z) : list event :=
  if Z.eqb c 0 then []
  else [ConsoleError ("Python MCP server exited with code " +:+ js_number c)].

(** The first line of the branch of [Postinstall.main] for a missing
    interpreter, as [log] writes it. *)
Definition python_missing_text : string :=
  Postinstall.colors.red +:+ "❌ Python not found!" +:+ Postinstall.colors.reset.

Definition python_missing_line : event := ConsoleLog python_missing_text.

(** Is the event a [console.log] of the line [l]? *)
Definition logs_line (l : string) (e : event) : bool :=
  match e with
  | ConsoleLog l' => String.eqb l l'
  | _ => false
  end.

(** ** The installer, in words *)

(** A line as [Postinstall.log] writes it. *)
Definition logged (msg color : string) : string :=
  color +:+ msg +:+ Postinstall.colors.reset.

Definition pyproject (w : World) : string :=
  path_join w [dirname w; "pyproject.toml"].

Definition uv_command : string := "uv sync --no-dev".

Definition pip_command (pythonCmd : string) : string :=
  pythonCmd +:+ " -m pip install -e " +:+ dq +:+ ".[dev]" +:+ dq.

(** Did the shell command run and end with status 0? *)
Definition shell_ok (w : World) (command : string) : bool :=
  match os_shell w command with
  | Exited 0 => true
  | _ => false
  end.

(** The message of the exception [execSync] raises for a command. *)
Definition shell_error (w : World) (command : string) : string :=
  match os_shell w command with
  | LaunchFailed errno => errno
  | _ => "Command failed: " +:+ command
  end.

Definition uv_ok (w : World) : bool :=
  fs_exists w (pyproject w) && shell_ok w uv_command.

Definition pip_ok (w : World) (pythonCmd : string) : bool :=
  shell_ok w (pip_command pythonCmd).

(** Is the event an [execSync] of [command]? *)
Definition runs_command (command : string) (e : event) : bool :=
  match e with
  | ExecSync c _ _ => String.eqb command c
  | _ => false
  end.

(** An [execSync] of the installer: one of its two commands, run in the
    package directory with the environment of [Postinstall.install_env]. *)
Definition installer_exec (w : World) (e : event) : Prop :=
  match e with
  | ExecSync c cwd env =>
      (c = uv_command ∨ c = pip_command "python3")
      ∧ cwd = dirname w ∧ env = Postinstall.install_env w
  | _ => True
  end.

Definition found_uv_text : string :=
  logged "✓ Found uv (recommended package manager)" Postinstall.colors.green.

Definition uv_missing_text : string :=
  logged "ℹ uv not found - using pip instead" Postinstall.colors.yellow.

Definition complete_text : string :=
  logged "  ✅ Installation Complete!" Postinstall.colors.green.

Definition install_failed_text : string :=
  logged (Postinstall.nl +:+ "❌ Failed to install Python dependencies!"
          +:+ Postinstall.nl) Postinstall.colors.red.

(** ** The supervisor, in words *)

Definition is_kill (e : event) : bool :=
  match e with Kill _ => true | _ => false end.

(** The worker processes a run may start: the selected interpreter on the
    worker script, when the script exists and an interpreter is found. *)
Definition workers (w : World) : list event :=
  if fs_exists w (Index.serverPath w) then
    match chosen w with
    | FromVenv python | FromSystem python =>
        [Spawn python [Index.serverPath w] (Index.worker_env w)]
    | NoPython => []
    end
  else [].


(** ** Sample machines *)

Definition posix_join (parts : list string) : string := String.concat "/" parts.

Definition one_of (paths : list string) (p : string) : bool :=
  existsb (String.eqb p) paths.

Definition sample_env : gmap string string :=
  <["GRAPHISTRY_USERNAME" := "alice"]>
    (<["GRAPHISTRY_PASSWORD" := "hunter2"]>
       (<["PYTHONUNBUFFERED" := "0"]> (<["PATH" := "/usr/bin"]> ∅))).

Definition machine (files : list string) (programs : list string) : World :=
  {| dirname := "/opt/mcp";
     path_join := posix_join;
     fs_exists := one_of files;
     os_run := λ file _, if one_of programs file then Exited 0
                         else LaunchFailed "ENOENT";
     os_shell := λ _, Exited 1;
     process_env := sample_env |}.

(** A machine installed as intended: worker script and Unix venv. *)
Definition with_venv : World :=
  machine ["/opt/mcp/run_graphistry_mcp.py"; "/opt/mcp/.venv/bin/python"]
          ["python3"].

(** No venv, but a system [python] (and no [python3]). *)
Definition with_system_python : World :=
  machine ["/opt/mcp/run_graphistry_mcp.py"] ["python"].

(** The worker script and nothing to run it with. *)
Definition without_python : World :=
  machine ["/opt/mcp/run_graphistry_mcp.py"] [].

(** An interpreter but no worker script. *)
Definition without_script : World :=
  machine ["/opt/mcp/.venv/bin/python"] ["python3"; "python"].

(** A machine where [pyproject.toml] exists and every shell command
    succeeds. *)
Definition with_uv : World :=
  {| dirname := "/opt/mcp";
     path_join := posix_join;
     fs_exists := one_of ["/opt/mcp/pyproject.toml"];
     os_run := λ _ _, Exited 0;
     os_shell := λ _, Exited 0;
     process_env := sample_env |}.

(** * Properties *)

(** ** Interpreter selection *)

Lemma valid_python3 : valid_file "python3" = true.
Proof. reflexivity. Qed.

Lemma valid_python : valid_file "python" = true.
Proof. reflexivity. Qed.

(** One round of the second loop of [findPython], by the answer of the
    machine. *)
Lemma try_candidate_probe (w : World) (cmd : string) :
  valid_file cmd = true →
  Index.try_candidate w cmd =
    if version_probe w cmd
    then (probe_event cmd :: warnings, Ret (Some cmd))
    else ([probe_event cmd], Ret None).
Proof.
  intros Hv. unfold Index.try_candidate, spawnSync, version_probe.
  rewrite Hv. cbn.
  destruct (is_zero _); reflexivity.
Qed.

(** [findPython] of index.js does exactly what the table says. *)
Lemma findPython_table (w : World) : Index.findPython w = selection_table w.
Proof.
  unfold Index.findPython, selection_table, Index.venvPaths.
  fold (unix_venv w) (windows_venv w). cbn [Index.venv_loop].
  unfold existsSync. cbn.
  destruct (fs_exists w (unix_venv w)); [reflexivity|]. cbn.
  destruct (fs_exists w (windows_venv w)); [reflexivity|]. cbn.
  rewrite (try_candidate_probe w "python3" valid_python3).
  destruct (version_probe w "python3"); [reflexivity|]. cbn.
  rewrite (try_candidate_probe w "python" valid_python).
  destruct (version_probe w "python"); reflexivity.
Qed.

(** [chosen] names the value [selection_table] ends with. *)
Lemma selection_table_result (w : World) :
  result_of (selection_table w) =
    match chosen w with
    | FromVenv p => Ret p
    | FromSystem cmd => Ret cmd
    | NoPython => Exit 1
    end.
Proof.
  unfold selection_table, chosen.
  destruct (fs_exists w (unix_venv w)), (fs_exists w (windows_venv w)),
    (version_probe w "python3"), (version_probe w "python"); reflexivity.
Qed.



(** The second case of C3 on a machine with a system [python] only. *)
Example findPython_system_python :
  Index.findPython with_system_python =
    ([ExistsSync "/opt/mcp/.venv/bin/python";
      ExistsSync "/opt/mcp/.venv/Scripts/python.exe";
      SpawnSync "python3" ["--version"]; SpawnSync "python" ["--version"];
      ConsoleWarn "Warning: Using system Python. Dependencies may not be available.";
      ConsoleWarn "If you see import errors, try running: npm install again"],
     Ret "python").
Proof. reflexivity. Qed.

(** ** Start-up *)

(** [startup] by cases: the worker script is looked for first, then the
    interpreter is selected, then the worker is spawned. *)
Lemma startup_cases (w : World) :
  Index.startup w =
    if fs_exists w (Index.serverPath w) then
      match Index.findPython w with
      | (t, Ret cmd) =>
          (ExistsSync (Index.serverPath w) :: t
             ++ [Spawn cmd [Index.serverPath w] (Index.worker_env w)], Ret cmd)
      | (t, Throw e) => (ExistsSync (Index.serverPath w) :: t, Throw e)
      | (t, Exit c) => (ExistsSync (Index.serverPath w) :: t, Exit c)
      end
    else
      ([ExistsSync (Index.serverPath w); ConsoleError (Index.server_not_found w)],
       Exit 1).
Proof.
  unfold Index.startup, existsSync.
  generalize (Index.findPython w). intros [t r]. cbn.
  destruct (fs_exists w (Index.serverPath w)); [|reflexivity].
  destruct r as [cmd|e|c]; cbn; try reflexivity.
Qed.

(** C4. When the worker script is absent at [path.join(__dirname,
    'run_graphistry_mcp.py')], the whole run is: one existence check of
    that path, one line on standard error that ends with the path, exit
    status 1.  No interpreter is looked for or run, nothing is spawned and
    nothing is tried a second time, whatever events the machine holds. *)
Theorem missing_script_fails_fast (w : World) (evs : list Index.loop_event) :
  fs_exists w (Index.serverPath w) = false →
  Index.serverPath w = path_join w [dirname w; "run_graphistry_mcp.py"]
  ∧ Index.supervisor w evs =
      ([ExistsSync (Index.serverPath w);
        ConsoleError ("Error: MCP server not found at " +:+ Index.serverPath w)],
       Index.Finished 1)
  ∧ existsb is_probe (fst (Index.supervisor w evs)) = false
  ∧ existsb is_spawn (fst (Index.supervisor w evs)) = false
  ∧ stderr_of (fst (Index.supervisor w evs)) =
      ["Error: MCP server not found at " +:+ Index.serverPath w].
Proof.
  intros Habs. split; [reflexivity|].
  unfold Index.supervisor. rewrite startup_cases, Habs.
  repeat split; reflexivity.
Qed.

Lemma missing_script_fails_fast_witness :
  Index.supervisor without_script [Index.Signal "SIGTERM"] =
    ([ExistsSync "/opt/mcp/run_graphistry_mcp.py";
      ConsoleError "Error: MCP server not found at /opt/mcp/run_graphistry_mcp.py"],
     Index.Finished 1).
Proof.
  apply (proj1 (proj2
    (missing_script_fails_fast without_script [Index.Signal "SIGTERM"] eq_refl))).
Defined.

(** C5. When neither venv path exists and neither [python3 --version] nor
    [python --version] ends with status 0, [findPython] writes the line
    that asks for Python 3.10+ to be installed and exits with status 1 after
    one attempt per candidate; in a run that gets as far as the selection
    (the worker script exists) this is the end of the supervisor and no
    worker has been spawned. *)
Theorem no_interpreter_fails (w : World) (evs : list Index.loop_event) :
  fs_exists w (unix_venv w) = false →
  fs_exists w (windows_venv w) = false →
  version_probe w "python3" = false →
  version_probe w "python" = false →
  Index.findPython w =
    ([ExistsSync (unix_venv w); ExistsSync (windows_venv w);
      SpawnSync "python3" ["--version"]; SpawnSync "python" ["--version"];
      ConsoleError "Error: Python not found. Please install Python 3.10+ from python.org"],
     Exit 1)
  ∧ (fs_exists w (Index.serverPath w) = true →
     Index.supervisor w evs =
       (ExistsSync (Index.serverPath w) :: trace_of (Index.findPython w),
        Index.Finished 1)
     ∧ existsb is_spawn (fst (Index.supervisor w evs)) = false
     ∧ stderr_of (fst (Index.supervisor w evs)) =
         ["Error: Python not found. Please install Python 3.10+ from python.org"]).
Proof.
  intros Hu Hw H3 Hp.
  assert (Hf : Index.findPython w =
    ([ExistsSync (unix_venv w); ExistsSync (windows_venv w);
      SpawnSync "python3" ["--version"]; SpawnSync "python" ["--version"];
      ConsoleError "Error: Python not found. Please install Python 3.10+ from python.org"],
     Exit 1)).
  { rewrite findPython_table. unfold selection_table.
    now rewrite Hu, Hw, H3, Hp. }
  split; [exact Hf|]. intros Hs.
  unfold Index.supervisor. rewrite startup_cases, Hs, Hf.
  repeat split; reflexivity.
Qed.

Lemma no_interpreter_fails_witness :
  Index.supervisor without_python [] =
    ([ExistsSync "/opt/mcp/run_graphistry_mcp.py";
      ExistsSync "/opt/mcp/.venv/bin/python";
      ExistsSync "/opt/mcp/.venv/Scripts/python.exe";
      SpawnSync "python3" ["--version"]; SpawnSync "python" ["--version"];
      ConsoleError "Error: Python not found. Please install Python 3.10+ from python.org"],
     Index.Finished 1).
Proof.
  apply (proj1 (proj2
    (no_interpreter_fails without_python [] eq_refl eq_refl eq_refl eq_refl) eq_refl)).
Defined.

Lemma findPython_spawns_nothing (w : World) :
  existsb is_spawn (trace_of (Index.findPython w)) = false.
Proof.
  rewrite findPython_table. unfold selection_table.
  destruct (fs_exists w (unix_venv w)), (fs_exists w (windows_venv w)),
    (version_probe w "python3"), (version_probe w "python"); reflexivity.
Qed.

(** When [startup] returns, its last effect is the spawn of the selected
    interpreter on the worker script, and it is the only spawn. *)
Lemma startup_spawn (w : World) (cmd : string) :
  result_of (Index.startup w) = Ret cmd →
  ∃ t, trace_of (Index.startup w) =
         t ++ [Spawn cmd [Index.serverPath w] (Index.worker_env w)]
       ∧ existsb is_spawn t = false.
Proof.
  rewrite startup_cases. pose proof (findPython_spawns_nothing w) as Hn.
  destruct (fs_exists w (Index.serverPath w)); [|discriminate].
  destruct (Index.findPython w) as [t [c|e|c]]; cbn; try discriminate.
  intros [= ->]. exists (ExistsSync (Index.serverPath w) :: t). split; [reflexivity|].
  exact Hn.
Qed.

(** ** The environment of the worker *)

(** C6. The environment given to [spawn] is that of the supervisor with
    [PYTHONUNBUFFERED] and [GRAPHISTRY_VENV_ACTIVE] set to ["1"]: these
    two names are bound to ["1"], every other name is bound (or unbound)
    as in [process.env], in particular the two Graphistry credentials; and
    this is the environment the worker is spawned with. *)
Theorem worker_env_passes_environment (w : World) :
  Index.worker_env w =
    {["GRAPHISTRY_VENV_ACTIVE" := "1"]} ∪ ({["PYTHONUNBUFFERED" := "1"]} ∪ process_env w)
  ∧ Index.worker_env w !! "PYTHONUNBUFFERED" = Some "1"
  ∧ Index.worker_env w !! "GRAPHISTRY_VENV_ACTIVE" = Some "1"
  ∧ (∀ k : string, k ≠ "PYTHONUNBUFFERED" → k ≠ "GRAPHISTRY_VENV_ACTIVE" →
     Index.worker_env w !! k = process_env w !! k)
  ∧ Index.worker_env w !! "GRAPHISTRY_USERNAME" = process_env w !! "GRAPHISTRY_USERNAME"
  ∧ Index.worker_env w !! "GRAPHISTRY_PASSWORD" = process_env w !! "GRAPHISTRY_PASSWORD"
  ∧ dom (Index.worker_env w) =
      {["PYTHONUNBUFFERED"; "GRAPHISTRY_VENV_ACTIVE"]} ∪ dom (process_env w)
  ∧ (∀ cmd, result_of (Index.startup w) = Ret cmd →
     ∃ t, trace_of (Index.startup w) =
            t ++ [Spawn cmd [Index.serverPath w] (Index.worker_env w)]
          ∧ existsb is_spawn t = false).
Proof.
  assert (Hother : ∀ k : string, k ≠ "PYTHONUNBUFFERED" → k ≠ "GRAPHISTRY_VENV_ACTIVE" →
                   Index.worker_env w !! k = process_env w !! k).
  { intros k H1 H2. unfold Index.worker_env.
    rewrite lookup_insert_ne by congruence. now rewrite lookup_insert_ne by congruence. }
  repeat split.
  - unfold Index.worker_env. now rewrite !insert_union_singleton_l.
  - unfold Index.worker_env. rewrite lookup_insert_ne by done.
    apply lookup_insert_eq.
  - unfold Index.worker_env. apply lookup_insert_eq.
  - exact Hother.
  - apply Hother; done.
  - apply Hother; done.
  - unfold Index.worker_env. rewrite !dom_insert_L. apply set_eq. intros k.
    rewrite !elem_of_union, !elem_of_singleton. tauto.
  - apply startup_spawn.
Qed.

Lemma worker_env_passes_environment_witness :
  ∃ t, trace_of (Index.startup with_venv) =
         t ++ [Spawn "/opt/mcp/.venv/bin/python" ["/opt/mcp/run_graphistry_mcp.py"]
                     (Index.worker_env with_venv)]
       ∧ existsb is_spawn t = false.
Proof.
  apply (worker_env_passes_environment with_venv). reflexivity.
Defined.

(** The sample environment already binds [PYTHONUNBUFFERED] to ["0"]: the
    worker sees ["1"], and the credentials as they were. *)
Example worker_env_sample :
  Index.worker_env with_venv !! "PYTHONUNBUFFERED" = Some "1"
  ∧ Index.worker_env with_venv !! "GRAPHISTRY_USERNAME" = Some "alice"
  ∧ Index.worker_env with_venv !! "GRAPHISTRY_PASSWORD" = Some "hunter2"
  ∧ Index.worker_env with_venv !! "PATH" = Some "/usr/bin"
  ∧ Index.worker_env with_venv !! "HOME" = None.
Proof. repeat split; vm_compute; reflexivity. Qed.

(** ** The warning about the system interpreter *)

(** C9. The warning that dependencies may be missing is written exactly
    when a system interpreter ([python3] or [python]) is selected.  It is
    on the trace of [findPython] if and only if the choice is a fallback
    candidate; the selection then still returns that candidate, so the
    warning is not fatal; when a venv interpreter is selected no warning at
    all is written; and a whole start-up writes a warning if and only if
    it reaches the selection and a fallback candidate is chosen. *)
Theorem system_python_warning_iff_fallback (w : World) :
  (In (ConsoleWarn "Warning: Using system Python. Dependencies may not be available.")
      (trace_of (Index.findPython w))
   ↔ ∃ cmd, chosen w = FromSystem cmd)
  ∧ (existsb is_warning (trace_of (Index.findPython w)) = true
     ↔ ∃ cmd, chosen w = FromSystem cmd)
  ∧ (∀ cmd, chosen w = FromSystem cmd →
     In cmd ["python3"; "python"] ∧ result_of (Index.findPython w) = Ret cmd)
  ∧ (∀ p, chosen w = FromVenv p →
     result_of (Index.findPython w) = Ret p
     ∧ existsb is_warning (trace_of (Index.findPython w)) = false)
  ∧ (existsb is_warning (trace_of (Index.startup w)) = true
     ↔ fs_exists w (Index.serverPath w) = true ∧ ∃ cmd, chosen w = FromSystem cmd).
Proof.
  rewrite startup_cases, findPython_table.
  unfold selection_table, chosen, warnings, probe_event.
  destruct (fs_exists w (Index.serverPath w)),
    (fs_exists w (unix_venv w)), (fs_exists w (windows_venv w)),
    (version_probe w "python3"), (version_probe w "python");
    cbn; naive_solver.
Qed.

Lemma system_python_warning_iff_fallback_witness :
  In "python" ["python3"; "python"]
  ∧ result_of (Index.findPython with_system_python) = Ret "python".
Proof.
  apply (proj1 (proj2 (proj2
    (system_python_warning_iff_fallback with_system_python))) "python").
  reflexivity.
Defined.

(** ** The event loop *)

Lemma step_forwarded (name : string) :
  In name Index.forwarded →
  Index.step (Index.Signal name) = ([Kill name], Index.Running).
Proof.
  intros [<-|[<-|[]]]; reflexivity.
Qed.

(** Signals that are relayed leave the loop running: what follows them
    decides how the run ends. *)
Lemma event_loop_forwarded (sigs : list string) (rest : list Index.loop_event) :
  Forall (λ name, In name Index.forwarded) sigs →
  Index.event_loop ((Index.Signal <$> sigs) ++ rest) =
    let '(t, s) := Index.event_loop rest in ((Kill <$> sigs) ++ t, s).
Proof.
  induction 1 as [|name sigs Hname _ IH]; cbn [fmap list_fmap app].
  - now destruct (Index.event_loop rest).
  - cbn [Index.event_loop]. rewrite (step_forwarded name Hname), IH.
    now destruct (Index.event_loop rest).
Qed.

(** A run in which relayed signals are followed by an event that ends the
    supervisor. *)
Lemma supervisor_run (w : World) (cmd : string) (sigs : list string)
    (ev : Index.loop_event) (rest : list Index.loop_event)
    (t : list event) (code : Z) :
  result_of (Index.startup w) = Ret cmd →
  Forall (λ name, In name Index.forwarded) sigs →
  Index.step ev = (t, Index.Finished code) →
  Index.supervisor w ((Index.Signal <$> sigs) ++ ev :: rest) =
    (trace_of (Index.startup w) ++ (Kill <$> sigs) ++ t, Index.Finished code).
Proof.
  intros Hs Hsigs Hev. unfold Index.supervisor.
  destruct (Index.startup w) as [t0 r]. cbn in Hs. subst r.
  rewrite (event_loop_forwarded sigs (ev :: rest) Hsigs).
  cbn [Index.event_loop]. now rewrite Hev.
Qed.

Lemma step_exit_code (c : Z) :
  Index.step (Index.exit_event (Index.EndCode c)) = (exit_report c, Index.Finished c).
Proof.
  unfold exit_report. cbn. destruct (Z.eqb_spec c 0) as [->|Hc]; reflexivity.
Qed.

Lemma step_exit_always_finishes (e : Index.worker_end) :
  ∃ code, snd (Index.step (Index.exit_event e)) = Index.Finished code.
Proof.
  destruct e as [c|name]; cbn.
  - destruct (Z.eqb c 0); cbn; eauto.
  - destruct (String.eqb name ""); cbn; eauto.
Qed.

(** C1. The status of the worker is the status of the supervisor.  When
    the worker ends with status [c], after any number of relayed signals,
    the supervisor ends with status [c]: with nothing written when [c] is
    0, and after the line "Python MCP server exited with code c" on
    standard error when it is not. *)
Theorem worker_exit_code_propagates (w : World) (cmd : string)
    (sigs : list string) (c : Z) (rest : list Index.loop_event) :
  result_of (Index.startup w) = Ret cmd →
  Forall (λ name, In name Index.forwarded) sigs →
  Index.supervisor w ((Index.Signal <$> sigs) ++ Index.exit_event (Index.EndCode c) :: rest) =
    (trace_of (Index.startup w) ++ (Kill <$> sigs) ++ exit_report c, Index.Finished c)
  ∧ Index.step (Index.exit_event (Index.EndCode c)) = (exit_report c, Index.Finished c)
  ∧ (c = 0 → exit_report c = [])
  ∧ (c ≠ 0 →
     exit_report c =
       [ConsoleError ("Python MCP server exited with code " +:+ js_number c)]
     ∧ stderr_of (exit_report c) =
         ["Python MCP server exited with code " +:+ js_number c]).
Proof.
  intros Hs Hsigs. split; [|split; [|split]].
  - apply (supervisor_run w cmd sigs _ rest _ c Hs Hsigs), step_exit_code.
  - apply step_exit_code.
  - now intros ->.
  - intros Hc. unfold exit_report. apply Z.eqb_neq in Hc. now rewrite Hc.
Qed.

Lemma worker_exit_code_propagates_witness :
  Index.supervisor with_venv
    [Index.Signal "SIGINT"; Index.exit_event (Index.EndCode 7)] =
    (trace_of (Index.startup with_venv)
       ++ [Kill "SIGINT"; ConsoleError "Python MCP server exited with code 7"],
     Index.Finished 7).
Proof.
  apply (worker_exit_code_propagates with_venv "/opt/mcp/.venv/bin/python"
           ["SIGINT"] 7 []).
  - reflexivity.
  - constructor; [right; left; reflexivity | constructor].
Defined.

(** A worker that ends with status 0 gives a supervisor that ends with
    status 0 and writes nothing to standard error. *)
Example worker_exit_zero :
  Index.supervisor with_venv [Index.exit_event (Index.EndCode 0)] =
    (trace_of (Index.startup with_venv), Index.Finished 0)
  ∧ stderr_of (fst (Index.supervisor with_venv [Index.exit_event (Index.EndCode 0)])) = [].
Proof. split; vm_compute; reflexivity. Qed.

(** C2. [SIGTERM] and [SIGINT] are relayed, not obeyed.  With the worker
    spawned, either signal makes the supervisor send the very same signal
    to the worker and nothing else; the supervisor is still running
    afterwards; and the rest of the run is what the later events decide: if
    the worker then ends, state and trace are those of the ['exit']
    listener, which always ends the supervisor. *)
Theorem termination_signals_are_forwarded (w : World) (cmd name : string)
    (rest : list Index.loop_event) (e : Index.worker_end) :
  result_of (Index.startup w) = Ret cmd →
  name = "SIGTERM" ∨ name = "SIGINT" →
  Index.step (Index.Signal name) = ([Kill name], Index.Running)
  ∧ Index.supervisor w [Index.Signal name] =
      (trace_of (Index.startup w) ++ [Kill name], Index.Running)
  ∧ Index.supervisor w (Index.Signal name :: rest) =
      (trace_of (Index.startup w) ++ Kill name :: fst (Index.event_loop rest),
       snd (Index.event_loop rest))
  ∧ Index.supervisor w [Index.Signal name; Index.exit_event e] =
      (trace_of (Index.startup w) ++ Kill name :: fst (Index.step (Index.exit_event e)),
       snd (Index.step (Index.exit_event e)))
  ∧ ∃ code, snd (Index.step (Index.exit_event e)) = Index.Finished code.
Proof.
  intros Hs Hname.
  assert (Hin : In name Index.forwarded) by (cbn; intuition).
  assert (Hgen : ∀ evs, Index.supervisor w (Index.Signal name :: evs) =
            (trace_of (Index.startup w) ++ Kill name :: fst (Index.event_loop evs),
             snd (Index.event_loop evs))).
  { intros evs. unfold Index.supervisor.
    destruct (Index.startup w) as [t0 r]. cbn in Hs. subst r.
    cbn [Index.event_loop]. rewrite (step_forwarded name Hin).
    now destruct (Index.event_loop evs). }
  split; [now apply step_forwarded|]. split; [apply Hgen|]. split; [apply Hgen|].
  split; [|apply step_exit_always_finishes].
  rewrite Hgen. cbn [Index.event_loop].
  destruct (step_exit_always_finishes e) as [code Hcode].
  destruct (Index.step (Index.exit_event e)) as [t s]. cbn in Hcode. subst s.
  cbn. reflexivity.
Qed.

Lemma termination_signals_are_forwarded_witness :
  Index.supervisor with_venv
    [Index.Signal "SIGTERM"; Index.exit_event (Index.EndSignal "SIGTERM")] =
    (trace_of (Index.startup with_venv)
       ++ [Kill "SIGTERM"; ConsoleError "Python MCP server killed by signal SIGTERM"],
     Index.Finished 1).
Proof.
  apply (termination_signals_are_forwarded with_venv "/opt/mcp/.venv/bin/python"
           "SIGTERM" [] (Index.EndSignal "SIGTERM")).
  - reflexivity.
  - left. reflexivity.
Defined.

(** C7. A worker ended by a signal makes the supervisor write "Python MCP
    server killed by signal NAME" on standard error and end with status 1,
    the same for every signal. *)
Theorem worker_killed_by_signal (w : World) (cmd : string)
    (sigs : list string) (name : string) (rest : list Index.loop_event) :
  result_of (Index.startup w) = Ret cmd →
  Forall (λ s, In s Index.forwarded) sigs →
  name ≠ "" →
  Index.step (Index.exit_event (Index.EndSignal name)) =
    ([ConsoleError ("Python MCP server killed by signal " +:+ name)], Index.Finished 1)
  ∧ Index.supervisor w
      ((Index.Signal <$> sigs) ++ Index.exit_event (Index.EndSignal name) :: rest) =
      (trace_of (Index.startup w) ++ (Kill <$> sigs)
         ++ [ConsoleError ("Python MCP server killed by signal " +:+ name)],
       Index.Finished 1)
  ∧ (1 ≠ 0)%Z.
Proof.
  intros Hs Hsigs Hname.
  assert (Hstep : Index.step (Index.exit_event (Index.EndSignal name)) =
    ([ConsoleError ("Python MCP server killed by signal " +:+ name)], Index.Finished 1)).
  { cbn. apply String.eqb_neq in Hname. now rewrite Hname. }
  split; [exact Hstep|]. split; [|done].
  now apply (supervisor_run w cmd sigs _ rest _ 1 Hs Hsigs).
Qed.

Lemma worker_killed_by_signal_witness :
  Index.supervisor with_venv [Index.exit_event (Index.EndSignal "SIGKILL")] =
    (trace_of (Index.startup with_venv)
       ++ [ConsoleError "Python MCP server killed by signal SIGKILL"],
     Index.Finished 1).
Proof.
  apply (worker_killed_by_signal with_venv "/opt/mcp/.venv/bin/python" [] "SIGKILL" []).
  - reflexivity.
  - constructor.
  - discriminate.
Defined.

(** C8. When the worker cannot be started, the ['error'] listener writes
    "Failed to start Python MCP server: " followed by the reason on
    standard error and the supervisor ends with status 1. *)
Theorem spawn_failure_is_reported (w : World) (cmd : string)
    (sigs : list string) (message : string) (rest : list Index.loop_event) :
  result_of (Index.startup w) = Ret cmd →
  Forall (λ s, In s Index.forwarded) sigs →
  Index.step (Index.ChildError message) =
    ([ConsoleError ("Failed to start Python MCP server: " +:+ message)], Index.Finished 1)
  ∧ Index.supervisor w ((Index.Signal <$> sigs) ++ Index.ChildError message :: rest) =
      (trace_of (Index.startup w) ++ (Kill <$> sigs)
         ++ [ConsoleError ("Failed to start Python MCP server: " +:+ message)],
       Index.Finished 1)
  ∧ (1 ≠ 0)%Z.
Proof.
  intros Hs Hsigs. split; [reflexivity|]. split; [|done].
  now apply (supervisor_run w cmd sigs _ rest _ 1 Hs Hsigs).
Qed.

Lemma spawn_failure_is_reported_witness :
  Index.supervisor with_system_python [Index.ChildError "spawn python EACCES"] =
    (trace_of (Index.startup with_system_python)
       ++ [ConsoleError "Failed to start Python MCP server: spawn python EACCES"],
     Index.Finished 1).
Proof.
  apply (spawn_failure_is_reported with_system_python "python" [] "spawn python EACCES" []).
  - reflexivity.
  - constructor.
Defined.

(** ** The check for Python in postinstall.js *)

(** [checkCommand] answers [true] as soon as Node accepts the name: what
    the launch gives is not looked at. *)
Lemma checkCommand_accepts (w : World) (cmd : string) :
  valid_file cmd = true →
  Postinstall.checkCommand w cmd = ([SpawnSync cmd ["--version"]], Ret true).
Proof.
  intros Hv. unfold Postinstall.checkCommand, spawnSync. now rewrite Hv.
Qed.

Lemma postinstall_findPython_python3 (w : World) :
  Postinstall.findPython w = ([SpawnSync "python3" ["--version"]], Ret (Some "python3")).
Proof.
  unfold Postinstall.findPython, Postinstall.candidates.
  cbn [Postinstall.candidate_loop].
  now rewrite (checkCommand_accepts w "python3" valid_python3).
Qed.

(** A line that [logs_line] finds nowhere on a trace is not on it. *)
Lemma logs_line_absent (l : string) (t : list event) :
  existsb (logs_line l) t = false → ¬ In (ConsoleLog l) t.
Proof.
  intros Hnone Hin.
  assert (Hsome : existsb (logs_line l) t = true).
  { apply existsb_exists. exists (ConsoleLog l). split; [exact Hin|].
    cbn. apply String.eqb_refl. }
  congruence.
Qed.

(** Whatever the package managers answer, the installation steps never
    write the line of the missing interpreter. *)
Lemma install_lines (w : World) (cmd : string) :
  existsb (logs_line python_missing_text) (trace_of (Postinstall.install w cmd)) = false.
Proof.
  unfold Postinstall.install.
  rewrite (checkCommand_accepts w "uv" eq_refl).
  unfold Postinstall.installWithUv, Postinstall.pip_fallback,
    Postinstall.installWithPip, execSync, existsSync.
  destruct (fs_exists w _);
    destruct (os_shell w "uv sync --no-dev") as [errno|[|c|c]|name];
    destruct (os_shell w _) as [errno'|[|c'|c']|name'];
    lazy; reflexivity.
Qed.

Lemma main_trace (t : list event) (r : completion unit) :
  trace_of (Postinstall.banner ;; emit (SpawnSync "python3" ["--version"]) ;; (t, r)) =
    trace_of Postinstall.banner ++ SpawnSync "python3" ["--version"] :: t.
Proof. destruct r; reflexivity. Qed.

(** C10. In postinstall.js the check for Python cannot fail.
    [checkCommand] returns [true] for every name Node accepts as a program
    name (not empty, no NUL byte), whatever the launch gives, because
    [spawnSync] describes a failed launch in the object it returns and the
    [catch] is never entered; so [findPython] returns ['python3'] after a
    single launch whose result is not read, on every machine, also where
    [python3] cannot be started; and [main] always goes on with the
    installation for ['python3']: the "Python not found" branch and its
    [process.exit(1)] are never taken. *)
Theorem postinstall_python_check_is_vacuous (w : World) :
  (∀ cmd, valid_file cmd = true →
     Postinstall.checkCommand w cmd = ([SpawnSync cmd ["--version"]], Ret true))
  ∧ Postinstall.findPython w =
      ([SpawnSync "python3" ["--version"]], Ret (Some "python3"))
  ∧ result_of (Postinstall.findPython w) ≠ Ret None
  ∧ Postinstall.main w =
      (Postinstall.banner ;;
       emit (SpawnSync "python3" ["--version"]) ;;
       Postinstall.install w "python3")
  ∧ ¬ In python_missing_line (trace_of (Postinstall.main w)).
Proof.
  split; [apply checkCommand_accepts|].
  split; [apply postinstall_findPython_python3|].
  split; [now rewrite postinstall_findPython_python3|].
  assert (Hmain : Postinstall.main w =
      (Postinstall.banner ;;
       emit (SpawnSync "python3" ["--version"]) ;;
       Postinstall.install w "python3")).
  { unfold Postinstall.main. rewrite postinstall_findPython_python3.
    unfold mbind, proc_bind, emit. cbv beta iota.
    destruct (Postinstall.install w "python3") as [t r]. reflexivity. }
  split; [exact Hmain|].
  rewrite Hmain. apply logs_line_absent.
  pose proof (install_lines w "python3") as Hclean.
  destruct (Postinstall.install w "python3") as [t r].
  rewrite main_trace, existsb_app. cbn [existsb logs_line orb].
  cbn [trace_of fst] in Hclean. rewrite Hclean. reflexivity.
Qed.

Lemma postinstall_python_check_is_vacuous_witness :
  Postinstall.checkCommand without_python "python3" =
    ([SpawnSync "python3" ["--version"]], Ret true)
  ∧ os_run without_python "python3" ["--version"] = LaunchFailed "ENOENT".
Proof.
  split.
  - apply (proj1 (postinstall_python_check_is_vacuous without_python) "python3").
    reflexivity.
  - reflexivity.
Defined.

(** On a machine without any Python the installer still reports
    ['python3'] as found. *)
Example postinstall_finds_missing_python :
  version_probe without_python "python3" = false
  ∧ Postinstall.findPython without_python =
      ([SpawnSync "python3" ["--version"]], Ret (Some "python3"))
  ∧ In (ConsoleLog (Postinstall.colors.green +:+ "✓ Found Python: python3"
                    +:+ Postinstall.colors.reset))
       (trace_of (Postinstall.main without_python)).
Proof.
  split; [reflexivity|]. split; [reflexivity|].
  vm_compute. do 4 right. left. reflexivity.
Qed.

(** The names for which the [catch] of [checkCommand] does run are those
    Node refuses before launching anything. *)
Example checkCommand_empty_name (w : World) :
  Postinstall.checkCommand w "" = ([], Ret false).
Proof. reflexivity. Qed.

(** * Further properties of postinstall.js *)

(** ** The two installers *)

(** X1. [installWithUv] never lets an exception out and never ends the
    process: it returns [true] exactly when [pyproject.toml] exists next to
    the script and [uv sync --no-dev] ends with status 0.  The interpreter
    name it is given plays no part. *)
Theorem installWithUv_result (w : World) (pythonCmd other : string) :
  result_of (Postinstall.installWithUv w pythonCmd) = Ret (uv_ok w)
  ∧ Postinstall.installWithUv w pythonCmd = Postinstall.installWithUv w other.
Proof.
  split; [|reflexivity].
  unfold Postinstall.installWithUv, uv_ok, shell_ok, pyproject, uv_command,
    execSync, existsSync.
  destruct (fs_exists w _); [|reflexivity].
  destruct (os_shell w "uv sync --no-dev") as [errno|[|c|c]|name]; reflexivity.
Qed.

(** X2. Without [pyproject.toml], [installWithUv] runs no command at all:
    it looks for the file, writes the warning that names the missing file
    and returns [false]. *)
Theorem installWithUv_without_pyproject (w : World) (pythonCmd : string) :
  fs_exists w (pyproject w) = false →
  Postinstall.installWithUv w pythonCmd =
    ([ConsoleLog (logged (Postinstall.nl +:+ "🚀 Installing Python dependencies with uv...")
                         Postinstall.colors.cyan);
      ExistsSync (pyproject w);
      ConsoleLog (logged "⚠️  uv installation failed: pyproject.toml not found"
                         Postinstall.colors.yellow)],
     Ret false).
Proof.
  intros Hno. unfold Postinstall.installWithUv, existsSync.
  fold (pyproject w). rewrite Hno. reflexivity.
Qed.

Lemma installWithUv_without_pyproject_witness :
  result_of (Postinstall.installWithUv without_python "python3") = Ret false
  ∧ existsb (runs_command uv_command)
      (trace_of (Postinstall.installWithUv without_python "python3")) = false.
Proof.
  rewrite (installWithUv_without_pyproject without_python "python3" eq_refl).
  split; reflexivity.
Defined.

(** X3. [installWithPip] runs exactly one command, [<python> -m pip install
    -e ".[dev]"], in the package directory; it returns [true] when the
    command ends with status 0, and otherwise writes the message of the
    failure and returns [false].  No exception gets out. *)
Theorem installWithPip_result (w : World) (pythonCmd : string) :
  Postinstall.installWithPip w pythonCmd =
    ([ConsoleLog (logged (Postinstall.nl +:+ "📦 Installing Python dependencies with pip...")
                         Postinstall.colors.cyan);
      ExecSync (pip_command pythonCmd) (dirname w) (Postinstall.install_env w);
      ConsoleLog
        (if pip_ok w pythonCmd
         then logged ("✅ Python dependencies installed with pip" +:+ Postinstall.nl)
                     Postinstall.colors.green
         else logged ("❌ pip installation failed: "
                      +:+ shell_error w (pip_command pythonCmd))
                     Postinstall.colors.red)],
     Ret (pip_ok w pythonCmd)).
Proof.
  unfold Postinstall.installWithPip, pip_ok, shell_ok, shell_error, execSync.
  fold (pip_command pythonCmd).
  destruct (os_shell w (pip_command pythonCmd)) as [errno|[|c|c]|name]; reflexivity.
Qed.

(** ** The whole installation *)

(** [main] always goes on with the installation for [python3]. *)
Lemma main_install (w : World) :
  Postinstall.main w =
    (Postinstall.banner ;;
     emit (SpawnSync "python3" ["--version"]) ;;
     Postinstall.install w "python3").
Proof.
  unfold Postinstall.main. rewrite postinstall_findPython_python3.
  unfold mbind, proc_bind, emit. cbv beta iota.
  destruct (Postinstall.install w "python3") as [t r]. reflexivity.
Qed.

Lemma main_result_install (w : World) :
  result_of (Postinstall.main w) = result_of (Postinstall.install w "python3").
Proof.
  rewrite main_install. destruct (Postinstall.install w "python3") as [t [[]|e|c]];
    reflexivity.
Qed.

Lemma main_trace_install (w : World) :
  trace_of (Postinstall.main w) =
    trace_of Postinstall.banner ++ SpawnSync "python3" ["--version"]
      :: trace_of (Postinstall.install w "python3").
Proof.
  rewrite main_install. destruct (Postinstall.install w "python3") as [t r].
  apply main_trace.
Qed.

(** A line that the banner does not hold is written by [main] exactly when
    the installation writes it. *)
Lemma main_logs_line (w : World) (l : string) :
  existsb (logs_line l) (trace_of Postinstall.banner) = false →
  existsb (logs_line l) (trace_of (Postinstall.main w)) =
    existsb (logs_line l) (trace_of (Postinstall.install w "python3")).
Proof.
  intros Hb. rewrite main_trace_install, existsb_app, Hb. reflexivity.
Qed.

(** The cases of an installation: is [pyproject.toml] there, what does
    [uv sync] give, what does [pip] give. *)
Ltac install_cases w :=
  unfold Postinstall.install;
  rewrite (checkCommand_accepts w "uv" eq_refl);
  unfold Postinstall.installWithUv, Postinstall.pip_fallback,
    Postinstall.installWithPip, execSync, existsSync,
    uv_ok, pip_ok, shell_ok, pyproject, uv_command, pip_command;
  destruct (fs_exists w _);
  destruct (os_shell w "uv sync --no-dev") as [?|[|?|?]|?];
  destruct (os_shell w _) as [?|[|?|?]|?].

Lemma install_result (w : World) :
  result_of (Postinstall.install w "python3") =
    if uv_ok w || pip_ok w "python3" then Ret tt else Exit 1.
Proof. install_cases w; reflexivity. Qed.

Lemma install_complete (w : World) :
  existsb (logs_line complete_text) (trace_of (Postinstall.install w "python3")) =
    uv_ok w || pip_ok w "python3".
Proof. install_cases w; lazy; reflexivity. Qed.

Lemma install_failed (w : World) :
  existsb (logs_line install_failed_text) (trace_of (Postinstall.install w "python3")) =
    negb (uv_ok w || pip_ok w "python3").
Proof. install_cases w; lazy; reflexivity. Qed.

(** X4. How [main] ends.  It ends normally, after the "Installation
    Complete!" message, exactly when [uv sync] succeeds (with
    [pyproject.toml] present) or, failing that, [python3 -m pip install]
    succeeds; otherwise it writes "Failed to install Python dependencies!"
    and exits with status 1.  It never ends with an exception, and the
    success and failure messages exclude each other. *)
Theorem main_outcome (w : World) :
  result_of (Postinstall.main w) =
    (if uv_ok w || pip_ok w "python3" then Ret tt else Exit 1)
  ∧ existsb (logs_line complete_text) (trace_of (Postinstall.main w)) =
      uv_ok w || pip_ok w "python3"
  ∧ existsb (logs_line install_failed_text) (trace_of (Postinstall.main w)) =
      negb (uv_ok w || pip_ok w "python3").
Proof.
  split; [|split].
  - rewrite main_result_install. apply install_result.
  - rewrite main_logs_line by reflexivity. apply install_complete.
  - rewrite main_logs_line by reflexivity. apply install_failed.
Qed.

(** A machine where [uv sync] fails and [pip] fails too: exit status 1. *)
Example main_fails_without_python :
  result_of (Postinstall.main without_python) = Exit 1.
Proof. reflexivity. Qed.

Lemma install_found_uv (w : World) :
  existsb (logs_line found_uv_text) (trace_of (Postinstall.install w "python3")) = true
  ∧ existsb (logs_line uv_missing_text) (trace_of (Postinstall.install w "python3")) = false
  ∧ existsb (λ e, match e with ExistsSync _ => true | _ => false end)
      (trace_of (Postinstall.install w "python3")) = true.
Proof. install_cases w; lazy; repeat split; reflexivity. Qed.

(** X5. [uv] is always taken to be installed.  Because [checkCommand]
    answers [true] for ['uv'] on every machine, [main] always writes
    "Found uv" and always goes into [installWithUv] (it looks for
    [pyproject.toml]); the line "uv not found - using pip instead" is never
    written.  On a machine without [uv] the fallback to pip is reached
    through the failure of [uv sync]. *)
Theorem main_always_tries_uv (w : World) :
  result_of (Postinstall.checkCommand w "uv") = Ret true
  ∧ In (ConsoleLog found_uv_text) (trace_of (Postinstall.main w))
  ∧ ¬ In (ConsoleLog uv_missing_text) (trace_of (Postinstall.main w))
  ∧ In (ExistsSync (pyproject w)) (trace_of (Postinstall.main w)).
Proof.
  split; [now rewrite (checkCommand_accepts w "uv" eq_refl)|].
  destruct (install_found_uv w) as (Hfound & Hmissing & _).
  split; [|split].
  - rewrite main_trace_install.
    apply existsb_exists in Hfound as (e & Hin & He).
    destruct e; try discriminate He. cbn in He. apply String.eqb_eq in He. subst.
    apply in_or_app. right. right. exact Hin.
  - apply logs_line_absent. rewrite main_logs_line by reflexivity. exact Hmissing.
  - rewrite main_trace_install. apply in_or_app. right. right.
    unfold Postinstall.install. rewrite (checkCommand_accepts w "uv" eq_refl).
    unfold Postinstall.installWithUv, existsSync. fold (pyproject w).
    generalize (fs_exists w (pyproject w)) (Postinstall.pip_fallback w "python3")
      (execSync w "uv sync --no-dev" (dirname w) (Postinstall.install_env w)).
    intros b [tp rp] [te [[]|e|c]]; destruct b, rp; cbn; auto 6.
Qed.

Lemma main_existsb (w : World) (f : event → bool) :
  existsb f (trace_of Postinstall.banner) = false →
  f (SpawnSync "python3" ["--version"]) = false →
  existsb f (trace_of (Postinstall.main w)) =
    existsb f (trace_of (Postinstall.install w "python3")).
Proof.
  intros Hb Hp. rewrite main_trace_install, existsb_app, Hb. cbn [existsb orb].
  now rewrite Hp.
Qed.

Lemma install_commands (w : World) :
  existsb (runs_command uv_command) (trace_of (Postinstall.install w "python3")) =
    fs_exists w (pyproject w)
  ∧ existsb (runs_command (pip_command "python3"))
      (trace_of (Postinstall.install w "python3")) = negb (uv_ok w).
Proof. install_cases w; lazy; split; reflexivity. Qed.

(** X6. pip is the fallback and nothing else.  [main] runs [uv sync
    --no-dev] exactly when [pyproject.toml] exists, and runs [python3 -m
    pip install -e ".[dev]"] exactly when the uv installation did not
    succeed: after a successful [uv sync] pip is never started. *)
Theorem main_pip_only_after_uv_failed (w : World) :
  existsb (runs_command uv_command) (trace_of (Postinstall.main w)) =
    fs_exists w (pyproject w)
  ∧ existsb (runs_command (pip_command "python3")) (trace_of (Postinstall.main w)) =
      negb (uv_ok w)
  ∧ (uv_ok w = true →
     ¬ In (ExecSync (pip_command "python3") (dirname w) (Postinstall.install_env w))
          (trace_of (Postinstall.main w))).
Proof.
  destruct (install_commands w) as [Huv Hpip].
  assert (Hmain : existsb (runs_command (pip_command "python3"))
                    (trace_of (Postinstall.main w)) = negb (uv_ok w)).
  { rewrite main_existsb by reflexivity. exact Hpip. }
  split; [|split].
  - rewrite main_existsb by reflexivity. exact Huv.
  - exact Hmain.
  - intros Hok Hin. rewrite Hok in Hmain.
    assert (Hsome : existsb (runs_command (pip_command "python3"))
                      (trace_of (Postinstall.main w)) = true).
    { apply existsb_exists. eexists. split; [exact Hin|].
      cbn. apply String.eqb_refl. }
    rewrite Hsome in Hmain. discriminate Hmain.
Qed.

Lemma main_pip_only_after_uv_failed_witness :
  ¬ In (ExecSync (pip_command "python3") "/opt/mcp" (Postinstall.install_env with_uv))
       (trace_of (Postinstall.main with_uv)).
Proof.
  apply (proj2 (proj2 (main_pip_only_after_uv_failed with_uv))). reflexivity.
Defined.



Lemma install_execs (w : World) :
  Forall (installer_exec w) (trace_of (Postinstall.install w "python3")).
Proof.
  install_cases w; cbv -[Postinstall.install_env dirname];
    repeat (apply List.Forall_cons;
            [first [exact I
                   | split; [first [left; reflexivity | right; reflexivity]
                            | split; reflexivity]]|]);
    apply List.Forall_nil.
Qed.

(** X8. What the installer runs.  Every command [main] starts with
    [execSync] is [uv sync --no-dev] or [python3 -m pip install -e
    ".[dev]"] (the interpreter is always [python3], also on a machine that
    only has [python]), started in the directory of the script, with an
    environment that is [process.env] with [PYTHONUNBUFFERED] bound to
    ["1"] and every other name untouched. *)
Theorem main_runs_only_installers (w : World) :
  Forall (installer_exec w) (trace_of (Postinstall.main w))
  ∧ Postinstall.install_env w !! "PYTHONUNBUFFERED" = Some "1"
  ∧ (∀ k : string, k ≠ "PYTHONUNBUFFERED" →
     Postinstall.install_env w !! k = process_env w !! k).
Proof.
  split; [|split].
  - rewrite main_trace_install. apply Forall_app. split.
    + repeat (apply List.Forall_cons; [exact I|]). apply List.Forall_nil.
    + apply List.Forall_cons; [exact I|]. apply install_execs.
  - apply lookup_insert_eq.
  - intros k Hk. unfold Postinstall.install_env. now rewrite lookup_insert_ne.
Qed.

(** * Further properties of index.js *)

(** ** One step of the event loop, by cases *)

Lemma step_signal (name : string) :
  Index.step (Index.Signal name) =
    if String.eqb "SIGTERM" name || String.eqb "SIGINT" name
    then ([Kill name], Index.Running)
    else ([], Index.Unhandled name).
Proof.
  unfold Index.step, Index.signal_listeners, Index.forwarded.
  cbn [fmap list_fmap Index.listener_for].
  destruct (String.eqb_spec "SIGTERM" name) as [<-|_]; [reflexivity|].
  destruct (String.eqb_spec "SIGINT" name) as [<-|_]; reflexivity.
Qed.

Lemma step_child_exit (code : option Z) (signal : option string) :
  Index.step (Index.ChildExit code signal) =
    let by_signal :=
      if truthy signal
      then ([ConsoleError ("Python MCP server killed by signal " +:+ default "" signal)],
            Index.Finished 1)
      else ([], Index.Finished 0) in
    match code with
    | Some c => if Z.eqb c 0 then by_signal else (exit_report c, Index.Finished c)
    | None => by_signal
    end.
Proof.
  unfold exit_report. destruct code as [c|]; cbn.
  - destruct (Z.eqb c 0); cbn; [|reflexivity]. destruct (truthy signal); reflexivity.
  - destruct (truthy signal); reflexivity.
Qed.

(** Only a relayed signal leaves the supervisor running. *)
Lemma step_running (ev : Index.loop_event) (t : list event) :
  Index.step ev = (t, Index.Running) →
  ∃ name, ev = Index.Signal name ∧ In name Index.forwarded ∧ t = [Kill name].
Proof.
  destruct ev as [message|code signal|name].
  - discriminate.
  - rewrite step_child_exit. cbv zeta.
    destruct code as [c|]; [destruct (Z.eqb c 0)|]; try destruct (truthy signal);
      discriminate.
  - rewrite step_signal.
    destruct (String.eqb_spec "SIGTERM" name) as [<-|_]; cbn [orb].
    + intros [= <-]. exists "SIGTERM". cbn. auto.
    + destruct (String.eqb_spec "SIGINT" name) as [<-|_]; [|discriminate].
      intros [= <-]. exists "SIGINT". cbn. auto.
Qed.

(** A run of the loop that ends the supervisor is a series of relayed
    signals followed by the event that ends it. *)
Lemma event_loop_finished (evs : list Index.loop_event) (code : Z) :
  snd (Index.event_loop evs) = Index.Finished code →
  ∃ sigs ev rest t,
    evs = (Index.Signal <$> sigs) ++ ev :: rest
    ∧ Forall (λ name, In name Index.forwarded) sigs
    ∧ Index.step ev = (t, Index.Finished code)
    ∧ fst (Index.event_loop evs) = (Kill <$> sigs) ++ t.
Proof.
  induction evs as [|ev evs IH]; [discriminate|].
  cbn [Index.event_loop]. destruct (Index.step ev) as [t s] eqn:Hstep.
  destruct s as [|c|name]; cbn [snd fst].
  - apply step_running in Hstep as (name & -> & Hname & ->).
    destruct (Index.event_loop evs) as [t' s']. cbn [snd fst] in *.
    intros Hfin. destruct (IH Hfin) as (sigs & ev & rest & t & -> & Hsigs & Hev & ->).
    exists (name :: sigs), ev, rest, t. repeat split; auto.
  - intros [= ->]. exists [], ev, evs, t. repeat split; auto.
  - discriminate.
Qed.

(** The loop writes error lines and relays signals it was sent, nothing
    else. *)
Lemma event_loop_events (evs : list Index.loop_event) :
  Forall (λ e, match e with
               | ConsoleError _ => True
               | Kill name => In name Index.forwarded ∧ In (Index.Signal name) evs
               | _ => False
               end) (fst (Index.event_loop evs)).
Proof.
  induction evs as [|ev evs IH]; [apply List.Forall_nil|].
  cbn [Index.event_loop]. destruct (Index.step ev) as [t s] eqn:Hstep.
  assert (Hstop : s ≠ Index.Running →
            Forall (λ e, match e with ConsoleError _ => True | _ => False end) t).
  { intros Hs. destruct ev as [message|c sg|name].
    - injection Hstep as <- <-. repeat constructor.
    - rewrite step_child_exit in Hstep. cbv zeta in Hstep. unfold exit_report in Hstep.
      destruct c as [c|]; [destruct (Z.eqb c 0)|]; try destruct (truthy sg);
        injection Hstep as <- <-; repeat constructor.
    - rewrite step_signal in Hstep.
      destruct (_ || _); injection Hstep as <- <-; [congruence|constructor]. }
  destruct s as [|c|name]; cbn [fst].
  - apply step_running in Hstep as (name & -> & Hname & ->).
    destruct (Index.event_loop evs) as [t' s']. cbn [fst app] in *.
    apply List.Forall_cons; [split; [exact Hname|now left]|].
    eapply Forall_impl; [exact IH|]. intros [] He; cbn in *; intuition.
  - eapply Forall_impl; [apply Hstop; discriminate|]. intros [] He; cbn in *; intuition.
  - eapply Forall_impl; [apply Hstop; discriminate|]. intros [] He; cbn in *; intuition.
Qed.

(** Start-up relays nothing and ends either with the spawn of [workers]
    or with exit status 1 after an error line. *)
Lemma startup_outcome (w : World) :
  existsb is_kill (trace_of (Index.startup w)) = false
  ∧ List.filter is_spawn (trace_of (Index.startup w)) = workers w
  ∧ ((∃ cmd, result_of (Index.startup w) = Ret cmd)
     ∨ (result_of (Index.startup w) = Exit 1
        ∧ ∃ line, last (trace_of (Index.startup w)) = Some (ConsoleError line))).
Proof.
  rewrite startup_cases, findPython_table.
  unfold workers, selection_table, chosen, warnings, probe_event.
  destruct (fs_exists w (Index.serverPath w)),
    (fs_exists w (unix_venv w)), (fs_exists w (windows_venv w)),
    (version_probe w "python3"), (version_probe w "python");
    cbn; repeat split; eauto.
Qed.

(** ** What a run relays, starts and reports *)



(** X10. One worker at most.  Whatever happens afterwards, a run spawns
    exactly the processes of [workers]: none when the worker script is
    missing or no interpreter is found, and otherwise a single one, the
    selected interpreter with the path of the worker script as its only
    argument and the augmented environment.  The event loop never spawns
    anything. *)
Theorem at_most_one_worker (w : World) (evs : list Index.loop_event) :
  List.filter is_spawn (fst (Index.supervisor w evs)) = workers w
  ∧ (length (workers w) ≤ 1)%nat
  ∧ List.filter is_spawn (fst (Index.event_loop evs)) = [].
Proof.
  assert (Hloop : List.filter is_spawn (fst (Index.event_loop evs)) = []).
  { pose proof (event_loop_events evs) as H.
    induction H as [|[] t He _ IH]; cbn; auto; contradiction. }
  split; [|split; [|exact Hloop]].
  - destruct (startup_outcome w) as (_ & Hspawn & _).
    unfold Index.supervisor.
    destruct (Index.startup w) as [t0 [cmd|e|c]]; cbn [trace_of fst] in Hspawn;
      try exact Hspawn.
    destruct (Index.event_loop evs) as [t s]. cbn [fst] in *.
    now rewrite List.filter_app, Hloop, app_nil_r.
  - unfold workers. destruct (fs_exists w _); [|cbn; lia].
    destruct (chosen w); cbn; lia.
Qed.



(** X12. No silent failure.  Whenever the supervisor ends with a status
    other than 0, the last thing it did was to write a line with
    [console.error]: the missing script, the missing interpreter, the
    spawn error, the status of the worker or the signal that killed it. *)
Theorem failure_is_always_reported (w : World) (evs : list Index.loop_event) (code : Z) :
  snd (Index.supervisor w evs) = Index.Finished code →
  code ≠ 0 →
  ∃ line, last (fst (Index.supervisor w evs)) = Some (ConsoleError line).
Proof.
  unfold Index.supervisor. destruct (startup_outcome w) as (_ & _ & Hres).
  destruct (Index.startup w) as [t0 [cmd|e|c]]; cbn [result_of trace_of snd fst] in *.
  - destruct (Index.event_loop evs) as [t s] eqn:Hloop. cbn [snd fst]. intros -> Hcode.
    destruct (event_loop_finished evs code) as (sigs & ev & rest & t' & _ & _ & Hev & Ht);
      [now rewrite Hloop|].
    rewrite Hloop in Ht. cbn [fst] in Ht. subst t.
    assert (Hlast : ∃ line, last t' = Some (ConsoleError line)).
    { destruct ev as [message|c sg|name].
      - injection Hev as <- _. eauto.
      - rewrite step_child_exit in Hev. cbv zeta in Hev. unfold exit_report in Hev.
        destruct c as [c|]; [destruct (Z.eqb c 0)|]; try destruct (truthy sg);
          injection Hev as <- Hc; eauto; congruence.
      - rewrite step_signal in Hev. destruct (_ || _); discriminate Hev. }
    destruct Hlast as [line Hlast]. exists line.
    rewrite !last_app, Hlast. reflexivity.
  - destruct Hres as [[? [=]]|[[=] _]].
  - destruct Hres as [[? [=]]|[_ Hlast]]. intros _ _. exact Hlast.
Qed.

Lemma failure_is_always_reported_witness :
  ∃ line, last (fst (Index.supervisor without_python [])) = Some (ConsoleError line).
Proof.
  apply (failure_is_always_reported without_python [] 1); [reflexivity|discriminate].
Defined.




Lemma main_runs_only_installers_witness :
  Postinstall.install_env with_uv !! "GRAPHISTRY_USERNAME" =
    process_env with_uv !! "GRAPHISTRY_USERNAME".
Proof.
  apply (proj2 (proj2 (main_runs_only_installers with_uv))). discriminate.
Defined.
